(** * Duty-cycle controller of the ultrasonic person detector (src/main.cpp)

    One wake cycle of the firmware is the C++ function [setup]: sample the
    HC-SR04 for the active period, vote, report a state change over WiFi,
    arm the wake-up timer and enter deep sleep.  The embedding below follows
    that function and its helpers line by line.

    Conventions of the model.
    - [unsigned long] is 32 bits wide on the ESP32: values are [Z] and the
      wrap-around is written out with [ulong].  The two [int] counters of the
      sampling loop are plain [Z]; [sampling_loop_bounds] shows that they
      never leave the range 0..10 where the loop terminates.
    - [float]/[double] distances are exact rationals ([Q]).  The echo width
      is an integer number of microseconds, and the widths nearest to the
      threshold, 2941 and 2942 us, give 49.997 and 50.014 cm, so rounding
      does not change any comparison with 50.0.
    - The outside world (sensor echoes, the answers of [WiFi.status()], the
      outcome of the database write) is an [env] of oracles; the mutable part
      is a [state] threaded through every call.  Time only passes in the
      delay calls and inside a ranging. *)

From Stdlib Require Import ZArith QArith List String Bool Lia Permutation.
Import ListNotations.
Close Scope Q_scope.
Open Scope Z_scope.

(** ** Configuration constants (main.cpp lines 59-66) *)

Definition OBJECT_THRESHOLD_CM : Q := 50%Q.
Definition ACTIVE_PERIOD_MS : Z := 5000.
Definition MEASUREMENT_INTERVAL_MS : Z := 500.
Definition REQUIRED_COUNT : Z := 6.
Definition NO_PERSON_SLEEP_MS : Z := 30000.
Definition PERSON_SLEEP_MS : Z := 10000.

(** ** Machine integers *)

(** [unsigned long] on the ESP32. *)
Definition ulong (z : Z) : Z := z mod 2 ^ 32.

(** [unsigned long long], the type of [sleepDuration * 1000ULL]. *)
Definition ulonglong (z : Z) : Z := z mod 2 ^ 64.

(** ** The outside world *)

(** What the echo pin does after one trigger pulse: nothing at all, or it
    goes high [lead_us] microseconds after the call to [pulseIn] and stays
    high for [width_us] microseconds. *)
Inductive echo : Type :=
| Silence
| Echo (lead_us width_us : Z).

(** One ranging as the environment supplies it: the echo, and the time the
    call to [measureDistanceCM] spends besides its two fixed trigger delays
    (waiting in [pulseIn], writing the log line). *)
Record reading : Type := mkReading {
  pulse : echo;
  busy_us : Z
}.

(** The values of [WiFi.status()] the code distinguishes. *)
Inductive wl_status_t : Type :=
| WL_IDLE_STATUS
| WL_CONNECTED
| WL_CONNECT_FAILED
| WL_DISCONNECTED.

Definition is_connected (s : wl_status_t) : bool :=
  match s with WL_CONNECTED => true | _ => false end.

Record env : Type := mkEnv {
  sensor : nat -> reading;          (* the n-th ranging since power-up *)
  wifi_status : nat -> wl_status_t; (* the n-th answer of WiFi.status() *)
  db_set_ok : nat -> bool           (* outcome of the n-th Database.set *)
}.

(** ** Observable actions *)

(** Radio and remote-store actions, in the order of the calls. *)
Inductive net_event : Type :=
| WiFiBegin
| FirebaseInit
| DatabaseSet (path : string) (value : Z)
| WiFiDisconnect.

(** Pieces written to the serial log. *)
Inductive serial_item : Type :=
| Text (s : string)
| Int (z : Z)
| Float (q : Q)
| LocalIP
| ClientVersion
| LastError.

(** ** Mutable state *)

Record state : Type := mkState {
  now_us : Z;                    (* microseconds since this boot *)
  ranged : nat;                  (* rangings consumed from [sensor] *)
  polled : nat;                  (* answers consumed from [wifi_status] *)
  written : nat;                 (* outcomes consumed from [db_set_ok] *)
  lastPersonPresent : bool;      (* RTC_DATA_ATTR, survives deep sleep *)
  net_log : list net_event;      (* newest first *)
  serial_log : list serial_item; (* newest first *)
  wakeup_timer_us : option Z;    (* esp_sleep_enable_timer_wakeup *)
  asleep : bool                  (* esp_deep_sleep_start was reached *)
}.

Definition advance (us : Z) (s : state) : state :=
  mkState (now_us s + us) (ranged s) (polled s) (written s)
          (lastPersonPresent s) (net_log s) (serial_log s)
          (wakeup_timer_us s) (asleep s).

Definition next_reading (s : state) : state :=
  mkState (now_us s) (S (ranged s)) (polled s) (written s)
          (lastPersonPresent s) (net_log s) (serial_log s)
          (wakeup_timer_us s) (asleep s).

Definition next_poll (s : state) : state :=
  mkState (now_us s) (ranged s) (S (polled s)) (written s)
          (lastPersonPresent s) (net_log s) (serial_log s)
          (wakeup_timer_us s) (asleep s).

Definition next_write (s : state) : state :=
  mkState (now_us s) (ranged s) (polled s) (S (written s))
          (lastPersonPresent s) (net_log s) (serial_log s)
          (wakeup_timer_us s) (asleep s).

Definition store_lastPersonPresent (b : bool) (s : state) : state :=
  mkState (now_us s) (ranged s) (polled s) (written s)
          b (net_log s) (serial_log s)
          (wakeup_timer_us s) (asleep s).

Definition emit (e : net_event) (s : state) : state :=
  mkState (now_us s) (ranged s) (polled s) (written s)
          (lastPersonPresent s) (e :: net_log s) (serial_log s)
          (wakeup_timer_us s) (asleep s).

Definition Serial_print (i : serial_item) (s : state) : state :=
  mkState (now_us s) (ranged s) (polled s) (written s)
          (lastPersonPresent s) (net_log s) (i :: serial_log s)
          (wakeup_timer_us s) (asleep s).

Definition esp_sleep_enable_timer_wakeup (us : Z) (s : state) : state :=
  mkState (now_us s) (ranged s) (polled s) (written s)
          (lastPersonPresent s) (net_log s) (serial_log s)
          (Some us) (asleep s).

Definition esp_deep_sleep_start (s : state) : state :=
  mkState (now_us s) (ranged s) (polled s) (written s)
          (lastPersonPresent s) (net_log s) (serial_log s)
          (wakeup_timer_us s) true.

(** ** Arduino primitives *)

Definition delay (ms : Z) : state -> state := advance (ms * 1000).
Definition delayMicroseconds (us : Z) : state -> state := advance us.

(** [millis()]: whole milliseconds since boot, as an [unsigned long]. *)
Definition millis (s : state) : Z := ulong (now_us s / 1000).

(** Whether the echo pulse is over before the timeout of [pulseIn]. *)
Definition echo_within (timeout_us : Z) (e : echo) : bool :=
  match e with
  | Silence => false
  | Echo lead_us width_us => lead_us + width_us <=? timeout_us
  end.

(** Modelled from the spec: [pulseIn] belongs to the Arduino core, not to
    this repository.  It yields the width of the echo pulse in microseconds,
    and 0 when no complete pulse was seen within the timeout. *)
Definition pulseIn (timeout_us : Z) (e : echo) : Z :=
  match e with
  | Echo _ width_us => if echo_within timeout_us e then width_us else 0
  | Silence => 0
  end.

(** Sequencing of state transformers, read left to right as in the source. *)
Notation "f ;; g" := (fun s : state => g (f s))
  (at level 61, left associativity, only parsing).

Section Cycle.

Variable E : env.

(** [WiFi.status()]: consumes one answer of the environment. *)
Definition WiFi_status (s : state) : wl_status_t * state :=
  (wifi_status E (polled s), next_poll s).

(** ** measureDistanceCM (lines 83-97)

    The three [digitalWrite] calls shape the trigger pulse; pin levels are
    not part of the state, only the two delays between them are.  The pulse
    width is at most the timeout, so storing it in a [long] changes
    nothing. *)

(** Lines 91-92: the pulse width read with a 30 ms timeout, turned into
    centimetres. *)
Definition distance_of (e : echo) : Q :=
  let duration := pulseIn 30000 e in
  ((inject_Z duration * (34 # 1000)) / 2)%Q.

Definition measureDistanceCM (s : state) : Q * state :=
  let s := delayMicroseconds 2 s in
  let s := delayMicroseconds 10 s in
  let r := sensor E (ranged s) in
  let s := advance (busy_us r) (next_reading s) in
  let distance := distance_of (pulse r) in
  let s := (Serial_print (Text "Measured distance: ") ;;
            Serial_print (Float distance) ;;
            Serial_print (Text " cm")) s in
  (distance, s).

(** ** connectWiFi (lines 102-118) *)

(** The [while] loop of lines 106-110.  [retries] is the C++ counter: it
    starts at 20 and is only decremented while positive, so it is a [nat].
    The status is polled before [retries > 0] is looked at. *)
Fixpoint connect_loop (retries : nat) (s : state) : nat * state :=
  let (st, s) := WiFi_status s in
  if is_connected st then (retries, s)
  else
    match retries with
    | O => (retries, s)
    | S retries' =>
        connect_loop retries'
          ((delay 500 ;; Serial_print (Text ".")) s)
    end.

Definition connectWiFi (s : state) : state :=
  let s := emit WiFiBegin s in
  let s := Serial_print (Text "Connecting to WiFi") s in
  let (_, s) := connect_loop 20 s in
  let s := Serial_print (Text "") s in
  let (st, s) := WiFi_status s in
  if is_connected st then
    (Serial_print (Text "WiFi connected.") ;; Serial_print LocalIP) s
  else
    Serial_print (Text "WiFi connection failed.") s.

(** ** initFirebase (lines 123-131) *)

Definition initFirebase (s : state) : state :=
  (Serial_print (Text "Firebase Client v") ;;
   Serial_print ClientVersion ;;
   emit FirebaseInit ;;
   Serial_print (Text "Firebase initialized.")) s.

(** ** sendToFirebase (lines 136-148) *)

Definition sendToFirebase (path : string) (status : Z) (s : state) : state :=
  let (st, s) := WiFi_status s in
  if is_connected st then
    let ok := db_set_ok E (written s) in
    let s := next_write (emit (DatabaseSet path status) s) in
    if negb ok then
      (Serial_print (Text "Firebase set error: ") ;; Serial_print LastError) s
    else
      (Serial_print (Text "State updated to Firebase: ") ;;
       Serial_print (Int status)) s
  else
    Serial_print (Text "WiFi not connected. Cannot send update to Firebase.") s.

(** ** setup (lines 150-213) *)

(** The two counters of the sampling loop. *)
Record counters : Type := mkCounters {
  detectionCount : Z;
  totalCount : Z
}.

Definition Qltb (x y : Q) : bool := negb (Qle_bool y x).

(** Lines 164-167: what one sample does to the counters. *)
Definition tally (c : counters) (dist : Q) : counters :=
  let total := totalCount c + 1 in
  if Qltb dist OBJECT_THRESHOLD_CM
  then mkCounters (detectionCount c + 1) total
  else mkCounters (detectionCount c) total.

(** Lines 162-169.  The loop ends when the clock says so; [fuel] bounds the
    number of evaluations of the loop condition and [None] means it ran out. *)
Fixpoint sampling_loop (fuel : nat) (startTime : Z) (c : counters)
    (s : state) : option (counters * state) :=
  match fuel with
  | O => None
  | S fuel' =>
      if ulong (millis s - startTime) <? ACTIVE_PERIOD_MS then
        let (dist, s) := measureDistanceCM s in
        let c := tally c dist in
        sampling_loop fuel' startTime c (delay MEASUREMENT_INTERVAL_MS s)
      else Some (c, s)
  end.

(** Line 172. *)
Definition classify (c : counters) : bool :=
  REQUIRED_COUNT <=? detectionCount c.

(** Lines 174-180. *)
Definition print_verdict (c : counters) (currentPersonPresent : bool) :
    state -> state :=
  Serial_print (Text "Detection count: ") ;;
  Serial_print (Int (detectionCount c)) ;;
  Serial_print (Text " out of ") ;;
  Serial_print (Int (totalCount c)) ;;
  Serial_print (Text " measurements.") ;;
  Serial_print (Text "Person present: ") ;;
  Serial_print (Text (if currentPersonPresent then "YES" else "NO")).

(** Lines 183-195: transmit only on a change of the detection state. *)
Definition report_gate (currentPersonPresent : bool) (s : state) : state :=
  if negb (Bool.eqb currentPersonPresent (lastPersonPresent s)) then
    (Serial_print (Text "State change detected. Updating Firebase...") ;;
     connectWiFi ;;
     initFirebase ;;
     sendToFirebase "/lab4/presence" (if currentPersonPresent then 1 else 0) ;;
     emit WiFiDisconnect ;;
     store_lastPersonPresent currentPersonPresent) s
  else
    Serial_print (Text "No state change detected. No update sent.") s.

(** Lines 200-207: the sleep duration chosen for a verdict. *)
Definition sleepDuration (currentPersonPresent : bool) : Z :=
  if currentPersonPresent then PERSON_SLEEP_MS else NO_PERSON_SLEEP_MS.

(** Lines 200-212. *)
Definition enter_sleep (currentPersonPresent : bool) (s : state) : state :=
  let d := sleepDuration currentPersonPresent in
  (Serial_print
     (Text (if currentPersonPresent
            then "Person detected: entering short deep sleep."
            else "No person detected: entering longer deep sleep.")) ;;
   Serial_print (Text "Deep sleeping for ") ;;
   Serial_print (Int d) ;;
   Serial_print (Text " ms...") ;;
   esp_sleep_enable_timer_wakeup (ulonglong (d * 1000)) ;;
   esp_deep_sleep_start) s.

(** Lines 155-169: the sampling phase, timed from [startTime = millis()].
    [Serial.begin] and the two [pinMode] calls before it only configure the
    board. *)
Definition sample_phase (fuel : nat) (s : state) : option (counters * state) :=
  let s := Serial_print (Text "Starting active sensor sampling cycle...") s in
  let startTime := millis s in
  sampling_loop fuel startTime (mkCounters 0 0) s.

(** Lines 172-212: everything after the sampling loop. *)
Definition decide_and_sleep (c : counters) (s : state) : state :=
  let currentPersonPresent := classify c in
  (print_verdict c currentPersonPresent ;;
   report_gate currentPersonPresent ;;
   enter_sleep currentPersonPresent) s.

(** One wake cycle.  [esp_deep_sleep_start] does not return: the next thing
    the device does is [setup] again, from [boot], so [loop] never runs. *)
Definition setup (fuel : nat) (s : state) : option state :=
  match sample_phase fuel s with
  | None => None
  | Some (c, s) => Some (decide_and_sleep c s)
  end.

End Cycle.

(** ** Notions used to state the properties *)

(** The counters after a whole window of samples, taken in order. *)
Definition count_window (window : list Q) : counters :=
  fold_left tally window (mkCounters 0 0).

(** The verdict the code reaches on a window of samples. *)
Definition window_verdict (window : list Q) : bool :=
  classify (count_window window).

(** Number of samples of a window strictly below the threshold. *)
Definition close_samples (window : list Q) : nat :=
  List.length (filter (fun d => if Qlt_le_dec d OBJECT_THRESHOLD_CM
                           then true else false) window).

(** The distances of the [n] rangings that follow state [s]. *)
Definition window_taken (E : env) (s : state) (n : nat) : list Q :=
  map (fun i => distance_of (pulse (sensor E i))) (seq (ranged s) n).

(** A call changed nothing but the serial log. *)
Definition only_logged (s s' : state) : Prop :=
  now_us s' = now_us s /\ ranged s' = ranged s /\ polled s' = polled s /\
  written s' = written s /\ lastPersonPresent s' = lastPersonPresent s /\
  net_log s' = net_log s /\ wakeup_timer_us s' = wakeup_timer_us s /\
  asleep s' = asleep s.

(** The state in which the sampling loop evaluates its condition again after
    one round (lines 163-168). *)
Definition after_sample (E : env) (s : state) : state :=
  delay MEASUREMENT_INTERVAL_MS (snd (measureDistanceCM E s)).

(** The number of the poll that decides whether a changed verdict is pushed:
    the one [sendToFirebase] makes. *)
Definition send_poll (E : env) (s : state) : nat :=
  polled
    (initFirebase
       (connectWiFi E
          (Serial_print
             (Text "State change detected. Updating Firebase...") s))).

(** Every ranging returns, and long before the millisecond counter could
    wrap around within one active period. *)
Definition responsive (E : env) : Prop :=
  forall n, 0 <= busy_us (sensor E n) <= 2 ^ 32 * 1000 - 6000000.

(** Every ranging returns within 55 ms. *)
Definition prompt (E : env) : Prop :=
  forall n, 0 <= busy_us (sensor E n) <= 55000.

(** The state at a wake-up: the clock restarts, RTC memory is kept. *)
Definition boot (prior : bool) : state :=
  mkState 0 0 0 0 prior [] [] None false.

(** ** Sample environments *)

(** Nothing in front of the sensor, WiFi never comes up, writes fail. *)
Definition env_empty_room : env :=
  mkEnv (fun _ => mkReading Silence 30000)
        (fun _ => WL_DISCONNECTED)
        (fun _ => false).

(** An object at about 40 cm, WiFi up at the third poll, writes succeed. *)
Definition env_person : env :=
  mkEnv (fun _ => mkReading (Echo 450 2353) 2900)
        (fun n => if (n <? 2)%nat then WL_DISCONNECTED else WL_CONNECTED)
        (fun _ => true).

(** As [env_person], but every ranging takes 60 ms. *)
Definition env_slow : env :=
  mkEnv (fun _ => mkReading (Echo 450 2353) 60000)
        (fun n => if (n <? 2)%nat then WL_DISCONNECTED else WL_CONNECTED)
        (fun _ => true).


(** The window of the end-to-end scenario: six samples at 40 cm, four at
    60 cm. *)
Definition scenario_window : list Q :=
  [40; 40; 40; 40; 40; 40; 60; 60; 60; 60]%Q.

(** ** Notions about the network log and about runs of gate steps *)

Definition is_begin (e : net_event) : bool :=
  match e with WiFiBegin => true | _ => false end.

Definition is_write (e : net_event) : bool :=
  match e with DatabaseSet _ _ => true | _ => false end.

(** How often the radio was switched on, and how many values were pushed. *)
Definition radio_starts (log : list net_event) : nat :=
  List.length (filter is_begin log).

Definition writes (log : list net_event) : nat :=
  List.length (filter is_write log).

(** Whether the radio is on after the events of a log (newest first): the
    latest [WiFi.begin] or [WiFi.disconnect] decides. *)
Fixpoint radio_on (log : list net_event) : bool :=
  match log with
  | [] => false
  | WiFiBegin :: _ => true
  | WiFiDisconnect :: _ => false
  | _ :: rest => radio_on rest
  end.

(** Lines 183-195 run once per verdict of a sequence of wake cycles. *)
Definition gate_steps (E : env) (verdicts : list bool) (s : state) : state :=
  fold_left (fun s v => report_gate E v s) verdicts s.

(** Number of places where a sequence of verdicts differs from the value
    before it, [prior] standing before the first. *)
Fixpoint changes (prior : bool) (verdicts : list bool) : nat :=
  match verdicts with
  | [] => O
  | v :: rest => ((if Bool.eqb v prior then 0 else 1) + changes v rest)%nat
  end.

(** Time spent inside the [n] rangings that follow state [s], besides their
    trigger delays. *)
Definition busy_total (E : env) (s : state) (n : nat) : Z :=
  fold_right Z.add 0 (map (fun i => busy_us (sensor E i)) (seq (ranged s) n)).

(** Whether the ranging with number [i] ends in a timeout of [pulseIn], and
    how many of the [n] rangings that follow state [s] do. *)
Definition timed_out (E : env) (i : nat) : bool :=
  negb (echo_within 30000 (pulse (sensor E i))).

Definition timeouts_in (E : env) (s : state) (n : nat) : nat :=
  List.length (filter (timed_out E) (seq (ranged s) n)).

(** Projections of updated states, without unfolding any arithmetic. *)
Ltac state_simpl :=
  cbn [now_us ranged polled written lastPersonPresent net_log serial_log
       wakeup_timer_us asleep advance next_reading next_poll next_write
       store_lastPersonPresent emit Serial_print
       esp_sleep_enable_timer_wakeup esp_deep_sleep_start
       delay delayMicroseconds fst snd] in *.

(** ** Basic facts *)

Lemma Qltb_lt (x y : Q) : Qltb x y = true <-> (x < y)%Q.
Proof.
  unfold Qltb. rewrite negb_true_iff.
  split; intro H.
  - apply Qnot_le_lt. intro Hle. apply Qle_bool_iff in Hle. congruence.
  - destruct (Qle_bool y x) eqn:Hb; [|reflexivity].
    apply Qle_bool_iff in Hb. exfalso. exact (Qlt_not_le _ _ H Hb).
Qed.

Lemma only_logged_refl (s : state) : only_logged s s.
Proof. repeat split. Qed.

Lemma only_logged_trans (s1 s2 s3 : state) :
  only_logged s1 s2 -> only_logged s2 s3 -> only_logged s1 s3.
Proof.
  unfold only_logged. intros H1 H2.
  repeat match goal with H : _ /\ _ |- _ => destruct H end.
  repeat split; congruence.
Qed.

Lemma Serial_print_only_logged (i : serial_item) (s : state) :
  only_logged s (Serial_print i s).
Proof. repeat split. Qed.

(** ** The connection loop *)

Section Reporting.

Variable E : env.

(** The retry loop never runs more than [retries] rounds, waits 500 ms per
    round, polls once per round and once more, and touches nothing else but
    the serial log. *)
Lemma connect_loop_spec (retries : nat) (s : state) :
  let left := fst (connect_loop E retries s) in
  let s' := snd (connect_loop E retries s) in
  (left <= retries)%nat /\
  now_us s' = now_us s + 500 * 1000 * Z.of_nat (retries - left) /\
  polled s' = (polled s + (retries - left) + 1)%nat /\
  ranged s' = ranged s /\ written s' = written s /\
  lastPersonPresent s' = lastPersonPresent s /\ net_log s' = net_log s /\
  wakeup_timer_us s' = wakeup_timer_us s /\ asleep s' = asleep s.
Proof.
  revert s. induction retries as [|r IH]; intro s;
    cbn -[Z.mul Z.of_nat Nat.sub].
  - destruct (is_connected _); cbn; repeat split; lia.
  - destruct (is_connected _); cbn -[Z.mul Z.of_nat Nat.sub].
    + rewrite Nat.sub_diag. cbn. repeat split; lia.
    + specialize (IH (Serial_print (Text ".") (delay 500 (next_poll s)))).
      cbn -[Z.mul Z.of_nat Nat.sub] in IH.
      destruct IH as (Hle & Hnow & Hpoll & Hrest).
      split; [lia|]. split; [|split; [|exact Hrest]].
      * rewrite Hnow. rewrite Nat.sub_succ_l by exact Hle. lia.
      * rewrite Hpoll. lia.
Qed.

(** The loop stops early only on a connected answer. *)
Lemma connect_loop_left (retries : nat) (s : state) :
  let left := fst (connect_loop E retries s) in
  let s' := snd (connect_loop E retries s) in
  is_connected (wifi_status E (Nat.pred (polled s'))) = true \/ left = O.
Proof.
  revert s. induction retries as [|r IH]; intro s; cbn.
  - destruct (is_connected (wifi_status E (polled s))) eqn:Hc; cbn; auto.
  - destruct (is_connected (wifi_status E (polled s))) eqn:Hc; cbn;
      [auto | apply IH].
Qed.

(** [connectWiFi] switches the radio on, and says how it ended. *)
Lemma connectWiFi_spec (s : state) :
  let s' := connectWiFi E s in
  net_log s' = WiFiBegin :: net_log s /\
  lastPersonPresent s' = lastPersonPresent s /\
  ranged s' = ranged s /\ written s' = written s /\
  wakeup_timer_us s' = wakeup_timer_us s /\ asleep s' = asleep s /\
  (polled s + 2 <= polled s' <= polled s + 22)%nat /\
  now_us s <= now_us s' <= now_us s + 20 * 500 * 1000 /\
  (hd LocalIP (serial_log s') = LocalIP \/
   hd LocalIP (serial_log s') = Text "WiFi connection failed.").
Proof.
  unfold connectWiFi.
  pose proof (connect_loop_spec 20
                (Serial_print (Text "Connecting to WiFi") (emit WiFiBegin s)))
    as H.
  destruct (connect_loop E 20 _) as [left s1]. cbv zeta in H. state_simpl.
  destruct H as (Hle & Hnow & Hpoll & Hr & Hw & Hl & Hn & Ht & Ha).
  unfold WiFi_status.
  destruct (is_connected _); state_simpl;
    (repeat split; try assumption; try lia; auto).
Qed.

Lemma initFirebase_spec (s : state) :
  let s' := initFirebase s in
  net_log s' = FirebaseInit :: net_log s /\
  lastPersonPresent s' = lastPersonPresent s /\
  ranged s' = ranged s /\ written s' = written s /\ polled s' = polled s /\
  now_us s' = now_us s /\
  wakeup_timer_us s' = wakeup_timer_us s /\ asleep s' = asleep s.
Proof. cbn. repeat split. Qed.

(** [sendToFirebase] writes exactly when the link is up at that moment. *)
Lemma sendToFirebase_spec (path : string) (status : Z) (s : state) :
  let s' := sendToFirebase E path status s in
  net_log s' =
    (if is_connected (wifi_status E (polled s))
     then DatabaseSet path status :: net_log s else net_log s) /\
  lastPersonPresent s' = lastPersonPresent s /\
  ranged s' = ranged s /\ polled s' = S (polled s) /\ now_us s' = now_us s /\
  wakeup_timer_us s' = wakeup_timer_us s /\ asleep s' = asleep s.
Proof.
  unfold sendToFirebase. cbn.
  destruct (is_connected _); cbn; [destruct (db_set_ok _ _); cbn|];
    repeat split.
Qed.

Lemma report_gate_changed (current : bool) (s : state) :
  current <> lastPersonPresent s ->
  let s' := report_gate E current s in
  let value := if current then 1 else 0 in
  net_log s' =
    (if is_connected (wifi_status E (send_poll E s))
     then [WiFiDisconnect; DatabaseSet "/lab4/presence" value;
           FirebaseInit; WiFiBegin]
     else [WiFiDisconnect; FirebaseInit; WiFiBegin]) ++ net_log s /\
  lastPersonPresent s' = current /\
  ranged s' = ranged s /\
  wakeup_timer_us s' = wakeup_timer_us s /\ asleep s' = asleep s.
Proof.
  intros Hne. unfold report_gate, send_poll.
  replace (Bool.eqb current (lastPersonPresent s)) with false
    by (symmetry; apply Bool.eqb_false_iff; exact Hne).
  cbn [negb]. cbv beta.
  assert (Hs0 : only_logged s
            (Serial_print
               (Text "State change detected. Updating Firebase...") s))
    by apply Serial_print_only_logged.
  destruct Hs0 as (_ & H0r & _ & _ & _ & H0n & H0t & H0a).
  remember (Serial_print _ s) as s0 eqn:Es0.
  pose proof (connectWiFi_spec s0) as Hc.
  pose proof (initFirebase_spec (connectWiFi E s0)) as Hi.
  pose proof (sendToFirebase_spec "/lab4/presence"
                (if current then 1 else 0)
                (initFirebase (connectWiFi E s0))) as Hs.
  cbv zeta in Hc, Hi, Hs.
  destruct Hc as (Hc1 & Hc2 & Hc3 & Hc4 & Hc5 & Hc6 & _).
  destruct Hi as (Hi1 & Hi2 & Hi3 & Hi4 & Hi5 & Hi6 & Hi7 & Hi8).
  destruct Hs as (Hs1 & Hs2 & Hs3 & Hs4 & Hs5 & Hs6 & Hs7).
  cbv zeta.
  cbn [store_lastPersonPresent emit net_log lastPersonPresent ranged
       wakeup_timer_us asleep].
  rewrite Hs1, Hi1, Hc1, Hs3, Hi3, Hc3, Hs6, Hi7, Hc5, Hs7, Hi8, Hc6.
  rewrite H0r, H0n, H0t, H0a.
  destruct (is_connected _); repeat split.
Qed.

Lemma report_gate_same (current : bool) (s : state) :
  current = lastPersonPresent s ->
  report_gate E current s =
  Serial_print (Text "No state change detected. No update sent.") s.
Proof.
  intros He. unfold report_gate.
  replace (Bool.eqb current (lastPersonPresent s)) with true
    by (symmetry; apply Bool.eqb_true_iff; exact He).
  reflexivity.
Qed.

End Reporting.

(** ** Counting a window *)

Lemma tally_total (c : counters) (d : Q) :
  totalCount (tally c d) = totalCount c + 1.
Proof. unfold tally. destruct (Qltb _ _); reflexivity. Qed.

Lemma tally_detection (c : counters) (d : Q) :
  detectionCount (tally c d) =
  detectionCount c + Z.of_nat (close_samples [d]).
Proof.
  unfold tally, close_samples. cbn [filter].
  destruct (Qlt_le_dec d OBJECT_THRESHOLD_CM) as [Hlt|Hge].
  - apply Qltb_lt in Hlt. rewrite Hlt. cbn. lia.
  - destruct (Qltb d OBJECT_THRESHOLD_CM) eqn:Hb.
    + apply Qltb_lt in Hb. exfalso. exact (Qlt_not_le _ _ Hb Hge).
    + cbn. lia.
Qed.

Lemma close_samples_cons (d : Q) (window : list Q) :
  close_samples (d :: window) = (close_samples [d] + close_samples window)%nat.
Proof.
  unfold close_samples. cbn [filter].
  destruct (Qlt_le_dec d OBJECT_THRESHOLD_CM); reflexivity.
Qed.

Lemma close_samples_le_length (window : list Q) :
  (close_samples window <= List.length window)%nat.
Proof. unfold close_samples. apply filter_length_le. Qed.

Lemma fold_tally_total (window : list Q) (c : counters) :
  totalCount (fold_left tally window c) =
  totalCount c + Z.of_nat (List.length window).
Proof.
  revert c. induction window as [|d window IH]; intro c; cbn [fold_left].
  - cbn. lia.
  - rewrite IH, tally_total. cbn [List.length]. lia.
Qed.

Lemma fold_tally_detection (window : list Q) (c : counters) :
  detectionCount (fold_left tally window c) =
  detectionCount c + Z.of_nat (close_samples window).
Proof.
  revert c. induction window as [|d window IH]; intro c; cbn [fold_left].
  - cbn. lia.
  - rewrite IH, tally_detection, (close_samples_cons d window). lia.
Qed.

Lemma close_samples_perm (w1 w2 : list Q) :
  Permutation w1 w2 -> close_samples w1 = close_samples w2.
Proof.
  induction 1 as [|d l l' _ IH|d d' l|l l' l'' _ IH1 _ IH2].
  - reflexivity.
  - rewrite (close_samples_cons d l), (close_samples_cons d l'), IH.
    reflexivity.
  - rewrite (close_samples_cons d' (d :: l)), (close_samples_cons d l),
      (close_samples_cons d (d' :: l)), (close_samples_cons d' l). lia.
  - congruence.
Qed.

Lemma window_verdict_spec (window : list Q) :
  window_verdict window = (REQUIRED_COUNT <=? Z.of_nat (close_samples window)).
Proof.
  unfold window_verdict, classify, count_window.
  rewrite fold_tally_detection. reflexivity.
Qed.

(** ** The sampling loop *)

Section Sampling.

Variable E : env.

Lemma measureDistanceCM_value (s : state) :
  fst (measureDistanceCM E s) = distance_of (pulse (sensor E (ranged s))).
Proof. reflexivity. Qed.

(** One round of the loop costs the two trigger delays, the ranging and the
    500 ms pause, consumes one reading and leaves the rest alone. *)
Lemma after_sample_spec (s : state) :
  let s' := after_sample E s in
  now_us s' = now_us s + 12 + busy_us (sensor E (ranged s)) + 500000 /\
  ranged s' = S (ranged s) /\ polled s' = polled s /\
  written s' = written s /\ lastPersonPresent s' = lastPersonPresent s /\
  net_log s' = net_log s /\ wakeup_timer_us s' = wakeup_timer_us s /\
  asleep s' = asleep s.
Proof.
  unfold after_sample, measureDistanceCM, MEASUREMENT_INTERVAL_MS.
  cbv beta zeta. state_simpl. repeat split. lia.
Qed.

Lemma sampling_loop_step (fuel : nat) (startTime : Z) (c : counters)
    (s : state) :
  sampling_loop E (S fuel) startTime c s =
  if ulong (millis s - startTime) <? ACTIVE_PERIOD_MS
  then sampling_loop E fuel startTime
         (tally c (distance_of (pulse (sensor E (ranged s)))))
         (after_sample E s)
  else Some (c, s).
Proof. reflexivity. Qed.

Lemma window_taken_S (s : state) (n : nat) :
  window_taken E s (S n) =
  distance_of (pulse (sensor E (ranged s))) ::
  window_taken E (after_sample E s) n.
Proof.
  unfold window_taken. cbn [seq map].
  destruct (after_sample_spec s) as (_ & Hr & _). cbv zeta in Hr.
  rewrite Hr. reflexivity.
Qed.

(** Whenever the loop ends, its counters are those of the window of samples
    it took, and it has touched neither the network nor the retained flag. *)
Lemma sampling_loop_inv (fuel : nat) (startTime : Z) :
  forall (c : counters) (s : state) (c' : counters) (s' : state),
    sampling_loop E fuel startTime c s = Some (c', s') ->
    exists n : nat,
      ranged s' = (ranged s + n)%nat /\
      c' = fold_left tally (window_taken E s n) c /\
      polled s' = polled s /\ written s' = written s /\
      lastPersonPresent s' = lastPersonPresent s /\
      net_log s' = net_log s /\ wakeup_timer_us s' = wakeup_timer_us s /\
      asleep s' = asleep s.
Proof.
  induction fuel as [|fuel IH]; intros c s c' s' Hrun.
  - discriminate Hrun.
  - rewrite sampling_loop_step in Hrun.
    destruct (ulong (millis s - startTime) <? ACTIVE_PERIOD_MS).
    + apply IH in Hrun.
      destruct Hrun as (n & Hr & Hc & Hp & Hw & Hl & Hn & Ht & Ha).
      destruct (after_sample_spec s)
        as (_ & Hr1 & Hp1 & Hw1 & Hl1 & Hn1 & Ht1 & Ha1).
      cbv zeta in *.
      exists (S n). rewrite window_taken_S. cbn [fold_left].
      repeat split; try congruence. lia.
    + injection Hrun as <- <-. exists O.
      repeat split. cbn. lia.
Qed.

(** The loop condition in terms of real time: as long as less than 2^32 ms
    have passed since [t0], the unsigned difference is the true one. *)
Lemma millis_since (t0 : Z) (s : state) :
  0 <= now_us s / 1000 - t0 / 1000 < 2 ^ 32 ->
  ulong (millis s - ulong (t0 / 1000)) = now_us s / 1000 - t0 / 1000.
Proof.
  intro H. unfold millis, ulong.
  rewrite <- Zminus_mod. apply Z.mod_small. exact H.
Qed.

Hypothesis E_responsive : responsive E.

(** With responsive rangings the loop ends: [fuel] rounds of 500 ms that
    cover what is left of the active period are enough.  A round only starts
    before the period is over, which bounds their number. *)
Lemma sampling_loop_ends (t0 : Z) (fuel : nat) :
  forall (c : counters) (s : state),
    0 <= now_us s - t0 ->
    now_us s / 1000 - t0 / 1000 < 2 ^ 32 ->
    5000000 <= now_us s - t0 + Z.of_nat fuel * 500000 ->
    exists c' s' n,
      sampling_loop E (S fuel) (ulong (t0 / 1000)) c s = Some (c', s') /\
      ranged s' = (ranged s + n)%nat /\
      (n = O \/ now_us s - t0 + (Z.of_nat n - 1) * 500000 < 5000000) /\
      (now_us s / 1000 - t0 / 1000 < 5000 -> (1 <= n)%nat).
Proof.
  induction fuel as [|fuel IH]; intros c s Hpos Hwrap Hfuel;
    rewrite sampling_loop_step;
    (rewrite millis_since
       by (split; [apply Z.le_0_sub, Z.div_le_mono; lia | exact Hwrap]));
    unfold ACTIVE_PERIOD_MS;
    destruct (Z.ltb_spec (now_us s / 1000 - t0 / 1000) 5000) as [Hin|Hout].
  - exfalso. Z.to_euclidean_division_equations. lia.
  - exists c, s, O. repeat split; [lia | auto | lia].
  - destruct (after_sample_spec s) as (Hnow & Hr & _). cbv zeta in Hnow, Hr.
    pose proof (E_responsive (ranged s)) as Hbusy.
    destruct (IH (tally c (distance_of (pulse (sensor E (ranged s)))))
                 (after_sample E s)) as (c' & s' & n & Hrun & Hr' & Hn & _).
    + lia.
    + rewrite Hnow. Z.to_euclidean_division_equations. lia.
    + lia.
    + exists c', s', (S n). split; [exact Hrun|].
      split; [lia|]. split; [|lia]. right.
      destruct Hn as [->|Hn].
      * Z.to_euclidean_division_equations. lia.
      * lia.
  - exists c, s, O. repeat split; [lia | auto | lia].
Qed.

End Sampling.

(** ** The sampling phase as a whole *)

Lemma sample_phase_inv (E : env) (fuel : nat) (s : state) (c : counters)
    (s1 : state) :
  sample_phase E fuel s = Some (c, s1) ->
  exists n : nat,
    ranged s1 = (ranged s + n)%nat /\
    c = count_window (window_taken E s n) /\
    totalCount c = Z.of_nat n /\
    polled s1 = polled s /\ written s1 = written s /\
    lastPersonPresent s1 = lastPersonPresent s /\
    net_log s1 = net_log s /\ wakeup_timer_us s1 = wakeup_timer_us s /\
    asleep s1 = asleep s.
Proof.
  unfold sample_phase. cbv zeta. intro Hrun.
  apply sampling_loop_inv in Hrun.
  destruct Hrun as (n & Hr & Hc & Hrest). state_simpl.
  exists n. split; [exact Hr|]. split; [exact Hc|]. split; [|exact Hrest].
  rewrite Hc, fold_tally_total. unfold window_taken.
  rewrite length_map, length_seq. cbn. lia.
Qed.

(** With responsive rangings, eleven evaluations of the loop condition are
    always enough, and between one and ten samples are taken. *)
Lemma sample_phase_ends (E : env) (fuel : nat) (s : state) :
  responsive E -> (11 <= fuel)%nat ->
  exists c s1,
    sample_phase E fuel s = Some (c, s1) /\ 1 <= totalCount c <= 10.
Proof.
  intros HE Hfuel.
  destruct fuel as [|fuel]; [lia|].
  set (s0 := Serial_print (Text "Starting active sensor sampling cycle...") s).
  destruct (sampling_loop_ends E HE (now_us s0) fuel (mkCounters 0 0) s0)
    as (c & s1 & n & Hrun & Hr & Hn & H1).
  - lia.
  - rewrite Z.sub_diag. reflexivity.
  - lia.
  - assert (Hsp : sample_phase E (S fuel) s = Some (c, s1)) by exact Hrun.
    exists c, s1. split; [exact Hsp|].
    destruct (sample_phase_inv E _ _ _ _ Hsp) as (n' & Hr' & _ & Ht & _).
    assert (n' = n) by (subst s0; state_simpl; lia). subst n'.
    rewrite Ht.
    assert (1 <= n)%nat by (apply H1; rewrite Z.sub_diag; reflexivity).
    destruct Hn as [->|Hn]; lia.
Qed.

(** The [int] counters stay far from overflow. *)
Lemma sampling_loop_bounds (E : env) (fuel : nat) (s : state) (c : counters)
    (s1 : state) :
  responsive E -> (11 <= fuel)%nat ->
  sample_phase E fuel s = Some (c, s1) ->
  0 <= detectionCount c <= totalCount c /\ totalCount c <= 10.
Proof.
  intros HE Hfuel Hrun.
  destruct (sample_phase_ends E fuel s HE Hfuel) as (c0 & s0 & Hrun0 & Hb).
  rewrite Hrun in Hrun0. injection Hrun0 as <- <-.
  destruct (sample_phase_inv E _ _ _ _ Hrun) as (n & _ & Hc & Ht & _).
  split; [|lia].
  rewrite Ht, Hc. unfold count_window. rewrite fold_tally_detection.
  pose proof (close_samples_le_length (window_taken E s n)) as Hle.
  unfold window_taken in Hle at 2. rewrite length_map, length_seq in Hle.
  cbn [detectionCount]. lia.
Qed.

(** With prompt rangings the [i]-th evaluation of the loop condition happens
    between [i] * 500.012 ms and [i] * 555.012 ms after the start, so the
    loop goes on for [i] < 10 and stops at [i] = 10. *)
Lemma sampling_loop_prompt (E : env) (t0 : Z) :
  prompt E ->
  forall (fuel i : nat) (c : counters) (s : state),
    (i <= 10)%nat ->
    Z.of_nat i * 500012 <= now_us s - t0 <= Z.of_nat i * 555012 ->
    (11 <= fuel + i)%nat ->
    exists c' s',
      sampling_loop E fuel (ulong (t0 / 1000)) c s = Some (c', s') /\
      ranged s' = (ranged s + (10 - i))%nat.
Proof.
  intros HE. induction fuel as [|fuel IH]; intros i c s Hi He Hfuel; [lia|].
  rewrite sampling_loop_step.
  rewrite millis_since
    by (split; [apply Z.le_0_sub, Z.div_le_mono; lia
               | Z.to_euclidean_division_equations; lia]).
  unfold ACTIVE_PERIOD_MS.
  destruct (Z.ltb_spec (now_us s / 1000 - t0 / 1000) 5000) as [Hin|Hout].
  - assert (i <= 9)%nat
      by (Z.to_euclidean_division_equations; lia).
    destruct (after_sample_spec E s) as (Hnow & Hr & _).
    cbv zeta in Hnow, Hr.
    pose proof (HE (ranged s)) as Hbusy.
    destruct (IH (S i) (tally c (distance_of (pulse (sensor E (ranged s)))))
                 (after_sample E s)) as (c' & s' & Hrun & Hr'); try lia.
    exists c', s'. split; [exact Hrun | lia].
  - assert (i = 10)%nat
      by (Z.to_euclidean_division_equations; lia).
    subst i. exists c, s. split; [reflexivity | lia].
Qed.

Lemma sample_phase_prompt (E : env) (fuel : nat) (s : state) :
  prompt E -> (11 <= fuel)%nat ->
  exists c s1, sample_phase E fuel s = Some (c, s1) /\ totalCount c = 10.
Proof.
  intros HE Hfuel.
  set (s0 := Serial_print (Text "Starting active sensor sampling cycle...") s).
  destruct (sampling_loop_prompt E (now_us s0) HE fuel O (mkCounters 0 0) s0)
    as (c & s1 & Hrun & Hr); try lia.
  assert (Hsp : sample_phase E fuel s = Some (c, s1)) by exact Hrun.
  exists c, s1. split; [exact Hsp|].
  destruct (sample_phase_inv E _ _ _ _ Hsp) as (n & Hr' & _ & Ht & _).
  subst s0. state_simpl. lia.
Qed.

(** ** After the sampling loop *)

Lemma enter_sleep_spec (current : bool) (s : state) :
  let s' := enter_sleep current s in
  asleep s' = true /\
  wakeup_timer_us s' = Some (sleepDuration current * 1000) /\
  lastPersonPresent s' = lastPersonPresent s /\ net_log s' = net_log s.
Proof.
  unfold enter_sleep. cbv beta zeta. state_simpl.
  repeat split. destruct current; reflexivity.
Qed.

Lemma print_verdict_only_logged (c : counters) (current : bool) (s : state) :
  only_logged s (print_verdict c current s).
Proof. repeat split. Qed.

Lemma app_nonempty_neq {A : Type} (l m : list A) : l <> [] -> l ++ m <> m.
Proof.
  intros Hl Heq. apply (f_equal (@List.length A)) in Heq.
  rewrite length_app in Heq. destruct l; [congruence | cbn in Heq; lia].
Qed.

(** The gate acts on the network exactly when the verdict changed. *)
Lemma report_gate_net_log (E : env) (current : bool) (s : state) :
  (current = lastPersonPresent s ->
   only_logged s (report_gate E current s)) /\
  (current <> lastPersonPresent s ->
   net_log (report_gate E current s) <> net_log s).
Proof.
  split; intro H.
  - rewrite (report_gate_same E current s H). apply Serial_print_only_logged.
  - destruct (report_gate_changed E current s H) as (Hn & _). cbv zeta in Hn.
    rewrite Hn. apply app_nonempty_neq.
    destruct (is_connected _); discriminate.
Qed.

(** Whatever the prior state, after the gate it is the verdict. *)
Lemma report_gate_stores (E : env) (current : bool) (s : state) :
  lastPersonPresent (report_gate E current s) = current.
Proof.
  destruct (bool_dec current (lastPersonPresent s)) as [He|Hne].
  - rewrite (report_gate_same E current s He). state_simpl. congruence.
  - apply (report_gate_changed E current s Hne).
Qed.

(** ** More on the connection step and on timeouts *)

Lemma connect_loop_until (E : env) (k : nat) :
  forall (retries : nat) (s : state),
    (k <= retries)%nat ->
    (forall j, (j < k)%nat ->
               is_connected (wifi_status E (polled s + j)) = false) ->
    is_connected (wifi_status E (polled s + k)) = true ->
    fst (connect_loop E retries s) = (retries - k)%nat /\
    now_us (snd (connect_loop E retries s)) =
      now_us s + 500 * 1000 * Z.of_nat k /\
    polled (snd (connect_loop E retries s)) = (polled s + k + 1)%nat.
Proof.
  induction k as [|k IH]; intros retries s Hk Hdown Hup.
  - rewrite Nat.add_0_r in Hup.
    destruct retries; cbn [connect_loop WiFi_status]; rewrite Hup;
      state_simpl; repeat split; lia.
  - destruct retries as [|r]; [lia|].
    pose proof (Hdown O ltac:(lia)) as H0. rewrite Nat.add_0_r in H0.
    cbn [connect_loop WiFi_status]. rewrite H0. cbv beta.
    set (s1 := Serial_print (Text ".") (delay 500 (next_poll s))).
    assert (Hp1 : polled s1 = S (polled s)) by reflexivity.
    assert (Hn1 : now_us s1 = now_us s + 500 * 1000) by reflexivity.
    destruct (IH r s1) as (Hleft & Hnow & Hpoll).
    + lia.
    + intros j Hj. rewrite Hp1.
      replace (S (polled s) + j)%nat with (polled s + S j)%nat by lia.
      apply Hdown. lia.
    + rewrite Hp1.
      replace (S (polled s) + k)%nat with (polled s + S k)%nat by lia.
      exact Hup.
    + rewrite Hleft, Hnow, Hpoll, Hp1, Hn1. repeat split; lia.
Qed.




Lemma distance_of_timeout (e : echo) :
  echo_within 30000 e = false ->
  distance_of e = ((inject_Z 0 * (34 # 1000)) / 2)%Q.
Proof.
  intro Hlate. unfold distance_of, pulseIn. cbv zeta.
  destruct e as [|lead width]; [reflexivity | rewrite Hlate; reflexivity].
Qed.

Lemma timeouts_le_close (E : env) (indices : list nat) :
  (List.length (filter (timed_out E) indices) <=
   close_samples (map (fun i => distance_of (pulse (sensor E i))) indices))%nat.
Proof.
  induction indices as [|i rest IH]; [cbn; lia|].
  cbn [map filter]. rewrite close_samples_cons. unfold timed_out at 1.
  destruct (echo_within 30000 (pulse (sensor E i))) eqn:Hin; cbn [negb].
  - lia.
  - rewrite (distance_of_timeout _ Hin). cbn [List.length].
    change (close_samples [((inject_Z 0 * (34 # 1000)) / 2)%Q]) with 1%nat.
    lia.
Qed.

(** * The properties *)

(** C1.  The verdict on a window of samples is true exactly when the number
    of samples strictly below the threshold reaches the required count; it
    does not depend on the order of the samples; exactly the required count
    gives true and one less gives false.  The counters the sampling loop ends
    with are those of the window of distances it measured. *)
Theorem classify_iff_required_count :
  (forall window : list Q,
     (window_verdict window = true <->
      REQUIRED_COUNT <= Z.of_nat (close_samples window)) /\
     (forall window',
        Permutation window window' ->
        window_verdict window' = window_verdict window) /\
     (Z.of_nat (close_samples window) = REQUIRED_COUNT ->
      window_verdict window = true) /\
     (Z.of_nat (close_samples window) = REQUIRED_COUNT - 1 ->
      window_verdict window = false)) /\
  (forall (E : env) (fuel : nat) (s : state) (c : counters) (s1 : state),
     sample_phase E fuel s = Some (c, s1) ->
     exists n : nat,
       totalCount c = Z.of_nat n /\
       classify c = window_verdict (window_taken E s n)).
Proof.
  split.
  - intro window. rewrite window_verdict_spec.
    split; [apply Z.leb_le|]. split; [|split].
    + intros window' Hperm. rewrite window_verdict_spec.
      rewrite (close_samples_perm _ _ Hperm). reflexivity.
    + intros ->. apply Z.leb_refl.
    + intros ->. reflexivity.
  - intros E fuel s c s1 Hrun.
    destruct (sample_phase_inv E _ _ _ _ Hrun) as (n & _ & Hc & Ht & _).
    exists n. split; [exact Ht|]. rewrite Hc. reflexivity.
Qed.

Lemma classify_iff_required_count_witness :
  window_verdict scenario_window = true /\
  window_verdict (rev scenario_window) = true /\
  window_verdict (tl scenario_window) = false /\
  option_map (fun r => classify (fst r))
    (sample_phase env_person 11 (boot false)) =
  Some (window_verdict (window_taken env_person (boot false) 10)).
Proof.
  destruct classify_iff_required_count as [Hwin Hrun].
  split; [|split; [|split]].
  - destruct (Hwin scenario_window) as (Hiff & _).
    apply Hiff. vm_compute. discriminate.
  - destruct (Hwin scenario_window) as (_ & Hperm & Hsix & _).
    rewrite (Hperm (rev scenario_window)).
    + apply Hsix. reflexivity.
    + apply Permutation_rev.
  - destruct (Hwin (tl scenario_window)) as (_ & _ & _ & Hfive).
    apply Hfive. reflexivity.
  - destruct (sample_phase env_person 11 (boot false)) as [[c s1]|] eqn:Hsp;
      [|vm_compute in Hsp; discriminate Hsp].
    destruct (Hrun _ _ _ _ _ Hsp) as (n & Ht & Hv).
    assert (Hn : n = 10%nat).
    { vm_compute in Hsp. injection Hsp as <- _. cbn in Ht. lia. }
    subst n. cbn [option_map fst]. rewrite Hv. reflexivity.
Defined.

(** C2.  The report gate acts on the network if and only if the current
    verdict differs from the stored prior state.  When they are equal nothing
    but the serial log changes.  From prior = false and current = true a
    report is made and the prior state becomes true; a later gate step with
    current = true then reports nothing. *)
Theorem report_iff_changed (E : env) (current : bool) (s : state) :
  let s' := report_gate E current s in
  (net_log s' <> net_log s <-> current <> lastPersonPresent s) /\
  (current = lastPersonPresent s -> only_logged s s') /\
  (lastPersonPresent s = false -> current = true ->
   net_log s' <> net_log s /\ lastPersonPresent s' = true /\
   forall s2, lastPersonPresent s2 = lastPersonPresent s' ->
              net_log (report_gate E true s2) = net_log s2).
Proof.
  cbv zeta.
  destruct (report_gate_net_log E current s) as [Hsame Hchg].
  split; [|split].
  - split.
    + intros Hlog Heq. apply Hlog. apply (Hsame Heq).
    + exact Hchg.
  - exact Hsame.
  - intros Hprior ->. rewrite report_gate_stores.
    split; [apply Hchg; congruence|]. split; [reflexivity|].
    intros s2 H2.
    destruct (report_gate_net_log E true s2) as [Hsame2 _].
    apply Hsame2. congruence.
Qed.

Lemma report_iff_changed_witness :
  let s1 := report_gate env_person true (boot false) in
  net_log s1 =
    [WiFiDisconnect; DatabaseSet "/lab4/presence" 1; FirebaseInit; WiFiBegin]
  /\ lastPersonPresent s1 = true
  /\ net_log (report_gate env_person true s1) = net_log s1.
Proof.
  cbv zeta.
  destruct (report_iff_changed env_person true (boot false))
    as (_ & _ & Hround).
  destruct (Hround eq_refl eq_refl) as (_ & Hprior & Hnext).
  split; [reflexivity|]. split; [exact Hprior|].
  apply Hnext. reflexivity.
Defined.

(** C3.  Whenever a report is attempted, the retained prior state becomes
    the current verdict, whatever the WiFi link and the database write do. *)
Theorem prior_updated_on_attempt (E : env) (current : bool) (s : state) :
  current <> lastPersonPresent s ->
  lastPersonPresent (report_gate E current s) = current.
Proof. intros _. apply report_gate_stores. Qed.

Lemma prior_updated_on_attempt_witness :
  lastPersonPresent (report_gate env_empty_room true (boot false)) = true /\
  net_log (report_gate env_empty_room true (boot false)) =
    [WiFiDisconnect; FirebaseInit; WiFiBegin].
Proof.
  split.
  - apply (prior_updated_on_attempt env_empty_room true (boot false)).
    cbn. discriminate.
  - reflexivity.
Defined.

(** C4.  The sleep duration is PERSON_SLEEP_MS (10 s) for a true verdict and
    NO_PERSON_SLEEP_MS (30 s) for a false one, the two differ, and the
    wake-up timer is armed with the chosen duration in microseconds. *)
Theorem sleep_duration_mapping :
  sleepDuration true = PERSON_SLEEP_MS /\
  sleepDuration false = NO_PERSON_SLEEP_MS /\
  PERSON_SLEEP_MS = 10 * 1000 /\ NO_PERSON_SLEEP_MS = 30 * 1000 /\
  PERSON_SLEEP_MS <> NO_PERSON_SLEEP_MS /\
  (forall (current : bool) (s : state),
     wakeup_timer_us (enter_sleep current s) =
     Some (sleepDuration current * 1000)).
Proof.
  repeat split; try reflexivity; try discriminate.
  intros current s. apply enter_sleep_spec.
Qed.

(** C5.  When no complete echo arrives within the 30 ms timeout, the ranging
    returns 0 cm as an ordinary value, and the loop counts it like any other
    sample.  In the completed sampling phase the total is the number of
    rangings made, timed-out ones included; every timed-out ranging is among
    the close samples, so six of them alone give a presence verdict. *)
Theorem timeout_sample_counts_as_close (E : env) (fuel : nat) (s : state) :
  responsive E -> (11 <= fuel)%nat ->
  (forall s0 : state,
     echo_within 30000 (pulse (sensor E (ranged s0))) = false ->
     (fst (measureDistanceCM E s0) == 0)%Q /\
     ranged (snd (measureDistanceCM E s0)) = S (ranged s0) /\
     (forall c : counters,
        tally c (fst (measureDistanceCM E s0)) =
        mkCounters (detectionCount c + 1) (totalCount c + 1))) /\
  exists (c : counters) (s1 : state) (n : nat),
    sample_phase E fuel s = Some (c, s1) /\
    ranged s1 = (ranged s + n)%nat /\
    c = count_window (window_taken E s n) /\
    totalCount c = Z.of_nat n /\
    Z.of_nat (timeouts_in E s n) <= detectionCount c <= totalCount c /\
    ((6 <= timeouts_in E s n)%nat -> classify c = true).
Proof.
  intros HE Hfuel. split.
  - intros s0 Hlate.
    rewrite measureDistanceCM_value, (distance_of_timeout _ Hlate).
    split; [reflexivity|]. split; reflexivity.
  - destruct (sample_phase_ends E fuel s HE Hfuel) as (c & s1 & Hrun & _).
    destruct (sample_phase_inv E _ _ _ _ Hrun) as (n & Hr & Hc & Ht & _).
    exists c, s1, n.
    assert (Hd : detectionCount c =
                 Z.of_nat (close_samples (window_taken E s n))).
    { rewrite Hc. unfold count_window. rewrite fold_tally_detection.
      cbn [detectionCount]. lia. }
    pose proof (timeouts_le_close E (seq (ranged s) n)) as Hlow.
    pose proof (close_samples_le_length (window_taken E s n)) as Hhigh.
    unfold window_taken in Hhigh at 2.
    rewrite length_map, length_seq in Hhigh.
    fold (timeouts_in E s n) in Hlow. fold (window_taken E s n) in Hlow.
    split; [exact Hrun|]. split; [exact Hr|]. split; [exact Hc|].
    split; [exact Ht|]. split; [lia|].
    intro Hsix. unfold classify, REQUIRED_COUNT. apply Z.leb_le. lia.
Qed.

Lemma timeout_sample_counts_as_close_witness :
  (fst (measureDistanceCM env_empty_room (boot false)) == 0)%Q /\
  exists (c : counters) (s1 : state),
    sample_phase env_empty_room 11 (boot false) = Some (c, s1) /\
    totalCount c = 10 /\ detectionCount c = 10 /\ classify c = true.
Proof.
  destruct (timeout_sample_counts_as_close env_empty_room 11 (boot false))
    as (Hcall & c & s1 & n & Hrun & _ & _ & Ht & Hd & Hv).
  - intro i. cbn. lia.
  - lia.
  - split; [apply (Hcall (boot false)); reflexivity|].
    exists c, s1. split; [exact Hrun|].
    assert (Hn : n = 10%nat).
    { vm_compute in Hrun. injection Hrun as <- _. cbn in Ht. lia. }
    subst n.
    change (timeouts_in env_empty_room (boot false) 10) with 10%nat
      in Hd, Hv.
    split; [exact Ht|]. split; [lia|]. apply Hv. lia.
Defined.




(** C7.  A second gate step with the same verdict, right after a first one,
    does nothing but write a log line: no network call, no status poll. *)
Theorem report_gate_idempotent (E : env) (current : bool) (s : state) :
  let s1 := report_gate E current s in
  lastPersonPresent s1 = current /\
  only_logged s1 (report_gate E current s1).
Proof.
  cbv zeta. split; [apply report_gate_stores|].
  apply report_gate_net_log. symmetry. apply report_gate_stores.
Qed.

(** C8.  With rangings that return, every wake cycle ends in deep sleep with
    the wake-up timer armed, whatever the echoes, the WiFi link and the
    database write do: eleven evaluations of the sampling condition are
    always enough, and nothing after the sampling loop can fail to end. *)
Theorem cycle_reaches_sleep (E : env) (fuel : nat) (s : state) :
  responsive E -> (11 <= fuel)%nat ->
  exists s' : state,
    setup E fuel s = Some s' /\ asleep s' = true /\
    wakeup_timer_us s' = Some (sleepDuration (lastPersonPresent s') * 1000).
Proof.
  intros HE Hfuel.
  destruct (sample_phase_ends E fuel s HE Hfuel) as (c & s1 & Hrun & _).
  unfold setup. rewrite Hrun. eexists. split; [reflexivity|].
  unfold decide_and_sleep. cbv beta zeta.
  destruct (enter_sleep_spec (classify c)
              (report_gate E (classify c)
                 (print_verdict c (classify c) s1)))
    as (Ha & Ht & Hl & _).
  cbv zeta in Ha, Ht, Hl.
  split; [exact Ha|]. rewrite Ht, Hl, report_gate_stores. reflexivity.
Qed.

Lemma cycle_reaches_sleep_witness :
  exists s' : state,
    setup env_empty_room 11 (boot true) = Some s' /\ asleep s' = true /\
    wakeup_timer_us s' = Some (sleepDuration (lastPersonPresent s') * 1000).
Proof.
  apply (cycle_reaches_sleep env_empty_room 11 (boot true)).
  - intro n. cbn. lia.
  - lia.
Defined.

(** C9.  With the active period of 5000 ms and the interval of 500 ms, the
    sampling loop takes exactly ten samples whenever each ranging returns
    within 55 ms, as it does when [pulseIn] gives up after its 30 ms: the
    strict comparison lets the round that starts before 5000 ms run, and the
    eleventh evaluation, at 5000.12 ms or later, ends the loop. *)
Theorem sample_count (E : env) (fuel : nat) (s : state) :
  prompt E -> (11 <= fuel)%nat ->
  exists c s1,
    sample_phase E fuel s = Some (c, s1) /\
    totalCount c = 10 /\
    ranged s1 = (ranged s + 10)%nat /\
    c = count_window (window_taken E s 10).
Proof.
  intros HE Hfuel.
  destruct (sample_phase_prompt E fuel s HE Hfuel) as (c & s1 & Hrun & Ht).
  exists c, s1. split; [exact Hrun|]. split; [exact Ht|].
  destruct (sample_phase_inv E _ _ _ _ Hrun) as (n & Hr & Hc & Hn & _).
  assert (n = 10%nat) by lia. subst n. split; [exact Hr | exact Hc].
Qed.

Lemma sample_count_witness :
  exists c s1,
    sample_phase env_empty_room 11 (boot false) = Some (c, s1) /\
    totalCount c = 10 /\
    ranged s1 = 10%nat.
Proof.
  destruct (sample_count env_empty_room 11 (boot false))
    as (c & s1 & Hrun & Ht & Hr & _).
  - intro n. cbn. lia.
  - lia.
  - exists c, s1. split; [exact Hrun|]. split; [exact Ht | exact Hr].
Defined.

(** C10.  At the end of every wake cycle the retained flag is the verdict of
    that cycle.  Sampling leaves the flag alone; the gate overwrites it, with
    network activity, when it differs from the verdict, and leaves flag and
    network alone when it is already equal. *)
Theorem lastPersonPresent_is_verdict (E : env) (fuel : nat) (s s' : state) :
  setup E fuel s = Some s' ->
  exists c s1,
    sample_phase E fuel s = Some (c, s1) /\
    lastPersonPresent s1 = lastPersonPresent s /\
    lastPersonPresent s' = classify c /\
    (classify c = lastPersonPresent s -> net_log s' = net_log s) /\
    (classify c <> lastPersonPresent s -> net_log s' <> net_log s) /\
    (forall (verdict : bool) (s0 : state),
       lastPersonPresent (report_gate E verdict s0) = verdict).
Proof.
  unfold setup. intro Hrun.
  destruct (sample_phase E fuel s) as [[c s1]|] eqn:Hsp; [|discriminate].
  injection Hrun as <-.
  destruct (sample_phase_inv E _ _ _ _ Hsp)
    as (n & _ & _ & _ & _ & _ & Hl & Hn & _).
  exists c, s1. split; [reflexivity|]. split; [exact Hl|].
  unfold decide_and_sleep. cbv beta zeta.
  set (s2 := print_verdict c (classify c) s1).
  assert (H2 : only_logged s1 s2) by apply print_verdict_only_logged.
  destruct H2 as (_ & _ & _ & _ & Hl2 & Hn2 & _).
  destruct (enter_sleep_spec (classify c) (report_gate E (classify c) s2))
    as (_ & _ & Hl3 & Hn3).
  cbv zeta in Hl3, Hn3. rewrite Hl3, Hn3.
  destruct (report_gate_net_log E (classify c) s2) as [Hsame Hchg].
  split; [apply report_gate_stores|]. split; [|split].
  - intro He. destruct Hsame as (_ & _ & _ & _ & _ & Hn4 & _); congruence.
  - intro Hne. rewrite <- Hn, <- Hn2. apply Hchg. congruence.
  - intros verdict s0. apply report_gate_stores.
Qed.

Lemma lastPersonPresent_is_verdict_witness :
  exists c s1,
    sample_phase env_person 11 (boot false) = Some (c, s1) /\
    classify c = true /\
    option_map lastPersonPresent (setup env_person 11 (boot false))
    = Some true.
Proof.
  destruct (setup env_person 11 (boot false)) as [s'|] eqn:Hrun;
    [|vm_compute in Hrun; discriminate Hrun].
  destruct (lastPersonPresent_is_verdict env_person 11 (boot false) s' Hrun)
    as (c & s1 & Hsp & _ & Hl & _).
  exists c, s1. split; [exact Hsp|].
  assert (Hc : classify c = true).
  { vm_compute in Hsp. injection Hsp as <- _. reflexivity. }
  split; [exact Hc|]. cbn [option_map]. congruence.
Defined.

(** * Further properties of the code *)

(** ** The retry loop of connectWiFi *)

(** X1.  When the first connected answer of [WiFi.status()] is the one with
    number k <= 20, the retry loop of connectWiFi stops right there: it has
    waited k times 500 ms, asked k + 1 times and has 20 - k retries left. *)
Theorem connect_loop_first_link (E : env) (k : nat) (s : state) :
  (k <= 20)%nat ->
  (forall j, (j < k)%nat ->
             is_connected (wifi_status E (polled s + j)) = false) ->
  is_connected (wifi_status E (polled s + k)) = true ->
  fst (connect_loop E 20 s) = (20 - k)%nat /\
  now_us (snd (connect_loop E 20 s)) = now_us s + 500 * Z.of_nat k * 1000 /\
  polled (snd (connect_loop E 20 s)) = (polled s + k + 1)%nat.
Proof.
  intros Hk Hdown Hup.
  destruct (connect_loop_until E k 20 s Hk Hdown Hup) as (H1 & H2 & H3).
  repeat split; [exact H1 | lia | exact H3].
Qed.

Lemma connect_loop_first_link_witness :
  fst (connect_loop env_person 20 (boot false)) = 18%nat /\
  now_us (snd (connect_loop env_person 20 (boot false))) = 1000000 /\
  polled (snd (connect_loop env_person 20 (boot false))) = 3%nat.
Proof.
  apply (connect_loop_first_link env_person 2 (boot false)).
  - lia.
  - intros j Hj. cbn [boot polled Nat.add].
    destruct j as [|[|j]]; [reflexivity | reflexivity | lia].
  - reflexivity.
Defined.

(** X2.  When none of the next 21 answers of [WiFi.status()] is connected,
    the retry loop of connectWiFi uses all 20 retries: it gives up after
    exactly 10 s and 21 polls. *)
Theorem connect_loop_no_link (E : env) (s : state) :
  (forall j, (j <= 20)%nat ->
             is_connected (wifi_status E (polled s + j)) = false) ->
  fst (connect_loop E 20 s) = O /\
  now_us (snd (connect_loop E 20 s)) = now_us s + 10 * 1000 * 1000 /\
  polled (snd (connect_loop E 20 s)) = (polled s + 21)%nat.
Proof.
  assert (Hgen : forall (retries : nat) (s0 : state),
    (forall j, (j <= retries)%nat ->
               is_connected (wifi_status E (polled s0 + j)) = false) ->
    fst (connect_loop E retries s0) = O /\
    now_us (snd (connect_loop E retries s0)) =
      now_us s0 + 500 * 1000 * Z.of_nat retries /\
    polled (snd (connect_loop E retries s0)) = (polled s0 + retries + 1)%nat).
  { induction retries as [|r IH]; intros s0 Hdown;
      pose proof (Hdown O ltac:(lia)) as H0; rewrite Nat.add_0_r in H0;
      cbn [connect_loop WiFi_status]; rewrite H0.
    - state_simpl. repeat split; lia.
    - cbv beta.
      set (s1 := Serial_print (Text ".") (delay 500 (next_poll s0))).
      assert (Hp1 : polled s1 = S (polled s0)) by reflexivity.
      assert (Hn1 : now_us s1 = now_us s0 + 500 * 1000) by reflexivity.
      destruct (IH s1) as (Hleft & Hnow & Hpoll).
      + intros j Hj. rewrite Hp1.
        replace (S (polled s0) + j)%nat with (polled s0 + S j)%nat by lia.
        apply Hdown. lia.
      + rewrite Hleft, Hnow, Hpoll, Hp1, Hn1. repeat split; lia. }
  intro Hdown. destruct (Hgen 20%nat s Hdown) as (H1 & H2 & H3).
  repeat split; [exact H1 | lia | lia].
Qed.

Lemma connect_loop_no_link_witness :
  fst (connect_loop env_empty_room 20 (boot false)) = O /\
  now_us (snd (connect_loop env_empty_room 20 (boot false))) = 10000000 /\
  polled (snd (connect_loop env_empty_room 20 (boot false))) = 21%nat.
Proof.
  apply (connect_loop_no_link env_empty_room (boot false)).
  intros j _. reflexivity.
Defined.

(** ** What the report gate does to the network log *)

(** The events one gate step adds, newest first. *)
Lemma report_gate_events (E : env) (current : bool) (s : state) :
  exists added : list net_event,
    net_log (report_gate E current s) = added ++ net_log s /\
    ((current = lastPersonPresent s /\ added = []) \/
     (current <> lastPersonPresent s /\
      (added = [WiFiDisconnect; FirebaseInit; WiFiBegin] \/
       added = [WiFiDisconnect;
                DatabaseSet "/lab4/presence" (if current then 1 else 0);
                FirebaseInit; WiFiBegin]))).
Proof.
  destruct (bool_dec current (lastPersonPresent s)) as [He|Hne].
  - exists []. split; [|left; split; [exact He | reflexivity]].
    rewrite (report_gate_same E current s He). reflexivity.
  - destruct (report_gate_changed E current s Hne) as (Hlog & _).
    cbv zeta in Hlog. rewrite Hlog.
    destruct (is_connected _); eexists; (split; [reflexivity|]);
      right; (split; [exact Hne|]); [right | left]; reflexivity.
Qed.

(** X3.  One gate step pushes at most one value, and a value it pushes goes
    to the path /lab4/presence, is 1 for a true and 0 for a false verdict,
    and is only pushed when the verdict differs from the retained flag. *)
Theorem gate_writes_only_presence (E : env) (current : bool) (s : state) :
  let s' := report_gate E current s in
  (writes (net_log s') <= writes (net_log s) + 1)%nat /\
  (forall (path : string) (value : Z),
     In (DatabaseSet path value) (net_log s') ->
     In (DatabaseSet path value) (net_log s) \/
     (path = "/lab4/presence"%string /\
      value = (if current then 1 else 0) /\
      current <> lastPersonPresent s)).
Proof.
  cbv zeta.
  destruct (report_gate_events E current s) as (added & Hlog & Hcases).
  rewrite Hlog. unfold writes. rewrite filter_app, length_app.
  destruct Hcases as [[_ ->]|[Hne [->| ->]]].
  - split; [cbn; lia|]. intros path value Hin. left. exact Hin.
  - split; [cbn; lia|]. intros path value Hin.
    apply in_app_or in Hin. destruct Hin as [Hin|Hin]; [|left; exact Hin].
    cbn in Hin. destruct Hin as [H|[H|[H|[]]]]; discriminate H.
  - split; [cbn; lia|]. intros path value Hin.
    apply in_app_or in Hin. destruct Hin as [Hin|Hin]; [|left; exact Hin].
    cbn in Hin. destruct Hin as [H|[H|[H|[H|[]]]]]; try discriminate H.
    injection H as <- <-. right. repeat split. exact Hne.
Qed.

Lemma gate_writes_only_presence_witness :
  (writes (net_log (report_gate env_person true (boot false))) <= 1)%nat /\
  true <> lastPersonPresent (boot false).
Proof.
  destruct (gate_writes_only_presence env_person true (boot false))
    as [Hcount Hwhat].
  split; [exact Hcount|].
  destruct (Hwhat "/lab4/presence"%string 1) as [Hold|(_ & _ & Hne)].
  - vm_compute. right. left. reflexivity.
  - destruct Hold.
  - exact Hne.
Defined.

(** X4.  A wake cycle never goes to sleep with the radio on: if WiFi was off
    when the cycle started it is off when deep sleep begins, whether or not
    the cycle reported, connected or wrote. *)
Theorem radio_off_at_sleep (E : env) (fuel : nat) (s s' : state) :
  setup E fuel s = Some s' ->
  radio_on (net_log s) = false ->
  radio_on (net_log s') = false /\ asleep s' = true.
Proof.
  unfold setup. intros Hrun Hoff.
  destruct (sample_phase E fuel s) as [[c s1]|] eqn:Hsp; [|discriminate].
  injection Hrun as <-.
  destruct (sample_phase_inv E _ _ _ _ Hsp)
    as (n & _ & _ & _ & _ & _ & _ & Hn & _).
  unfold decide_and_sleep. cbv beta zeta.
  set (s2 := print_verdict c (classify c) s1).
  assert (H2 : only_logged s1 s2) by apply print_verdict_only_logged.
  destruct H2 as (_ & _ & _ & _ & _ & Hn2 & _).
  destruct (enter_sleep_spec (classify c) (report_gate E (classify c) s2))
    as (Ha & _ & _ & Hn3).
  cbv zeta in Ha, Hn3. rewrite Hn3.
  split; [|exact Ha].
  destruct (report_gate_events E (classify c) s2) as (added & Hlog & Hcases).
  rewrite Hlog, Hn2, Hn.
  destruct Hcases as [[_ ->]|[_ [->| ->]]]; [exact Hoff | |]; reflexivity.
Qed.

Lemma radio_off_at_sleep_witness :
  option_map (fun s' => (radio_on (net_log s'), asleep s'))
    (setup env_person 11 (boot false)) = Some (false, true).
Proof.
  destruct (setup env_person 11 (boot false)) as [s'|] eqn:Hrun;
    [|vm_compute in Hrun; discriminate Hrun].
  destruct (radio_off_at_sleep env_person 11 (boot false) s' Hrun)
    as [Hoff Hasleep].
  - reflexivity.
  - cbn [option_map]. rewrite Hoff, Hasleep. reflexivity.
Defined.

Lemma last_cons {A : Type} (rest : list A) :
  forall v d : A, last (v :: rest) d = last rest v.
Proof.
  induction rest as [|b rest IH]; intros v d; [reflexivity|].
  change (last (v :: b :: rest) d) with (last (b :: rest) d).
  rewrite (IH b d), (IH b v). reflexivity.
Qed.

(** X5.  Over any sequence of verdicts handed to the gate one after the
    other, the radio is switched on exactly once per change of verdict (the
    retained flag standing before the first), at most that many values are
    pushed, and the flag ends as the last verdict. *)
Theorem gate_steps_report_changes (E : env) (verdicts : list bool)
    (s : state) :
  let s' := gate_steps E verdicts s in
  radio_starts (net_log s') =
    (radio_starts (net_log s) + changes (lastPersonPresent s) verdicts)%nat /\
  (writes (net_log s') <=
     writes (net_log s) + changes (lastPersonPresent s) verdicts)%nat /\
  lastPersonPresent s' = last verdicts (lastPersonPresent s).
Proof.
  cbv zeta. revert s.
  induction verdicts as [|v rest IH]; intro s.
  - cbn. repeat split; lia.
  - unfold gate_steps in *. cbn [fold_left changes].
    destruct (IH (report_gate E v s)) as (Hstarts & Hwrites & Hlast).
    rewrite report_gate_stores in Hstarts, Hwrites, Hlast.
    destruct (report_gate_events E v s) as (added & Hlog & Hcases).
    rewrite Hlog in Hstarts, Hwrites.
    unfold radio_starts, writes in *.
    rewrite filter_app, length_app in Hstarts, Hwrites.
    assert (Hadded :
      List.length (filter is_begin added) =
        (if Bool.eqb v (lastPersonPresent s) then 0 else 1)%nat /\
      (List.length (filter is_write added) <=
        (if Bool.eqb v (lastPersonPresent s) then 0 else 1))%nat).
    { destruct Hcases as [[He ->]|[Hne Hadd]].
      - apply Bool.eqb_true_iff in He. rewrite He. cbn. lia.
      - apply Bool.eqb_false_iff in Hne. rewrite Hne.
        destruct Hadd as [->| ->]; cbn; lia. }
    destruct Hadded as [Hb Hw].
    split; [lia|]. split; [lia|].
    rewrite Hlast. symmetry. apply last_cons.
Qed.

(** ** Distances *)

(** X6.  A sample counts as close exactly when the pulse width read by
    [pulseIn] is at most 2941 us; a timed-out ranging, read as 0, is among
    them. *)
Theorem close_iff_short_pulse (e : echo) :
  Qltb (distance_of e) OBJECT_THRESHOLD_CM = (pulseIn 30000 e <=? 2941).
Proof.
  unfold distance_of. cbv zeta.
  generalize (pulseIn 30000 e). intro w.
  unfold Qltb, Qle_bool, OBJECT_THRESHOLD_CM, Qdiv, Qmult, Qinv, inject_Z.
  cbn [Qnum Qden].
  destruct (Z.leb_spec w 2941) as [Hle|Hgt];
    match goal with
    | |- negb (?a <=? ?b) = _ => destruct (Z.leb_spec a b) as [Hfar|Hnear]
    end;
    cbn [negb]; try reflexivity; exfalso; lia.
Qed.

(** X7.  For an echo with non-negative timings the distance returned lies
    between 0 and 510 cm: the 30 ms timeout caps what the sensor can
    report. *)
Theorem distance_range (e : echo) :
  match e with
  | Silence => True
  | Echo lead_us width_us => 0 <= lead_us /\ 0 <= width_us
  end ->
  (0 <= distance_of e)%Q /\ (distance_of e <= 510)%Q.
Proof.
  intro Hpos.
  assert (Hw : 0 <= pulseIn 30000 e <= 30000).
  { destruct e as [|lead width]; cbn [pulseIn echo_within]; [lia|].
    destruct (Z.leb_spec (lead + width) 30000); lia. }
  unfold distance_of. cbv zeta. revert Hw.
  generalize (pulseIn 30000 e). intros w Hw.
  unfold Qle, Qdiv, Qmult, Qinv, inject_Z. cbn [Qnum Qden].
  split; lia.
Qed.

Lemma distance_range_witness :
  (0 <= distance_of (Echo 450 2353))%Q /\
  (distance_of (Echo 450 2353) <= 510)%Q.
Proof. apply (distance_range (Echo 450 2353)). split; lia. Defined.

(** ** Windows *)

(** X9.  A window of fewer than six samples never gives a presence verdict,
    whatever the distances; the empty window is one of them. *)
Theorem short_window_no_presence (window : list Q) :
  (List.length window < 6)%nat -> window_verdict window = false.
Proof.
  intro Hshort. rewrite window_verdict_spec.
  pose proof (close_samples_le_length window) as Hle.
  apply Z.leb_gt. unfold REQUIRED_COUNT. lia.
Qed.

Lemma short_window_no_presence_witness :
  window_verdict [] = false /\ window_verdict [1; 2; 3; 4; 5]%Q = false.
Proof.
  split.
  - apply (short_window_no_presence []). cbn. lia.
  - apply (short_window_no_presence [1; 2; 3; 4; 5]%Q). cbn. lia.
Defined.

Lemma close_samples_app (w1 w2 : list Q) :
  close_samples (w1 ++ w2) = (close_samples w1 + close_samples w2)%nat.
Proof.
  unfold close_samples. rewrite filter_app, length_app. reflexivity.
Qed.

(** X10.  Further samples never take a presence verdict back: once a window
    gives true, every window that extends it gives true as well. *)
Theorem more_samples_keep_presence (window more : list Q) :
  window_verdict window = true -> window_verdict (window ++ more) = true.
Proof.
  rewrite !window_verdict_spec, close_samples_app.
  intro H. apply Z.leb_le in H. apply Z.leb_le. lia.
Qed.

Lemma more_samples_keep_presence_witness :
  window_verdict (scenario_window ++ [300; 300; 300]%Q) = true.
Proof.
  apply (more_samples_keep_presence scenario_window [300; 300; 300]%Q).
  reflexivity.
Defined.

(** ** What the sampling phase consumes *)

(** X8.  With rangings that return, the two [int] counters of the sampling
    loop end between 0 and 10, the close count never above the total, so
    they cannot overflow; and the total is the number of rangings made. *)
Theorem counters_fit_int (E : env) (fuel : nat) (s : state) (c : counters)
    (s1 : state) :
  responsive E -> (11 <= fuel)%nat ->
  sample_phase E fuel s = Some (c, s1) ->
  0 <= detectionCount c <= totalCount c /\ 1 <= totalCount c <= 10 /\
  totalCount c < 2 ^ 31 /\
  Z.of_nat (ranged s1) = Z.of_nat (ranged s) + totalCount c.
Proof.
  intros HE Hfuel Hrun.
  destruct (sampling_loop_bounds E fuel s c s1 HE Hfuel Hrun) as [Hd Ht].
  destruct (sample_phase_ends E fuel s HE Hfuel) as (c0 & s0 & Hrun0 & Hb).
  rewrite Hrun in Hrun0. injection Hrun0 as <- <-.
  destruct (sample_phase_inv E _ _ _ _ Hrun) as (n & Hr & _ & Hn & _).
  repeat split; try lia.
Qed.

Lemma counters_fit_int_witness :
  exists c s1,
    sample_phase env_slow 11 (boot false) = Some (c, s1) /\
    0 <= detectionCount c <= totalCount c /\ totalCount c < 2 ^ 31.
Proof.
  destruct (sample_phase env_slow 11 (boot false)) as [[c s1]|] eqn:Hrun;
    [|vm_compute in Hrun; discriminate Hrun].
  destruct (counters_fit_int env_slow 11 (boot false) c s1)
    as (Hd & _ & Hi & _).
  - intro n. cbn. lia.
  - lia.
  - exact Hrun.
  - exists c, s1. split; [reflexivity|]. split; [exact Hd | exact Hi].
Defined.

Lemma close_samples_all_timeouts (E : env) (indices : list nat) :
  (forall i, echo_within 30000 (pulse (sensor E i)) = false) ->
  close_samples (map (fun i => distance_of (pulse (sensor E i))) indices) =
  List.length indices.
Proof.
  intro Hsilent. induction indices as [|i rest IH]; [reflexivity|].
  cbn [map List.length]. rewrite close_samples_cons, IH.
  rewrite (distance_of_timeout _ (Hsilent i)). reflexivity.
Qed.

(** X11.  A sensor that never answers is read as a person: when every
    ranging times out and returns within 55 ms, all ten samples are 0 cm,
    all ten count as close, and the verdict is presence. *)
Theorem silent_sensor_means_presence (E : env) (fuel : nat) (s : state) :
  prompt E -> (11 <= fuel)%nat ->
  (forall i, echo_within 30000 (pulse (sensor E i)) = false) ->
  exists c s1,
    sample_phase E fuel s = Some (c, s1) /\
    totalCount c = 10 /\ detectionCount c = 10 /\ classify c = true.
Proof.
  intros HE Hfuel Hsilent.
  destruct (sample_phase_prompt E fuel s HE Hfuel) as (c & s1 & Hrun & Ht).
  exists c, s1. split; [exact Hrun|]. split; [exact Ht|].
  destruct (sample_phase_inv E _ _ _ _ Hrun) as (n & _ & Hc & Hn & _).
  assert (Hd : detectionCount c = 10).
  { rewrite Hc. unfold count_window. rewrite fold_tally_detection.
    unfold window_taken. rewrite (close_samples_all_timeouts E _ Hsilent).
    rewrite length_seq. cbn [detectionCount]. lia. }
  split; [exact Hd|]. unfold classify. rewrite Hd. reflexivity.
Qed.

Lemma silent_sensor_means_presence_witness :
  exists c s1,
    sample_phase env_empty_room 11 (boot false) = Some (c, s1) /\
    totalCount c = 10 /\ detectionCount c = 10 /\ classify c = true.
Proof.
  apply (silent_sensor_means_presence env_empty_room 11 (boot false)).
  - intro n. cbn. lia.
  - lia.
  - intro i. reflexivity.
Defined.

(** ** How long the sampling phase lasts *)

Lemma busy_total_S (E : env) (s : state) (n : nat) :
  busy_total E s (S n) =
  busy_us (sensor E (ranged s)) + busy_total E (after_sample E s) n.
Proof.
  unfold busy_total. cbn [seq map fold_right].
  destruct (after_sample_spec E s) as (_ & Hr & _). cbv zeta in Hr.
  rewrite Hr. reflexivity.
Qed.

(** Each round costs 12 us of trigger delays, the ranging and 500 ms. *)
Lemma sampling_loop_time (E : env) (fuel : nat) (startTime : Z) :
  forall (c : counters) (s : state) (c' : counters) (s' : state),
    sampling_loop E fuel startTime c s = Some (c', s') ->
    exists n : nat,
      ranged s' = (ranged s + n)%nat /\
      now_us s' = now_us s + Z.of_nat n * 500012 + busy_total E s n.
Proof.
  induction fuel as [|fuel IH]; intros c s c' s' Hrun.
  - discriminate Hrun.
  - rewrite sampling_loop_step in Hrun.
    destruct (ulong (millis s - startTime) <? ACTIVE_PERIOD_MS).
    + apply IH in Hrun. destruct Hrun as (n & Hr & Hnow).
      destruct (after_sample_spec E s) as (Hnow1 & Hr1 & _).
      cbv zeta in Hnow1, Hr1.
      exists (S n). rewrite busy_total_S. split; lia.
    + injection Hrun as <- <-. exists O. split; [lia|].
      unfold busy_total. cbn. lia.
Qed.

Lemma busy_total_prompt (E : env) (s : state) (n : nat) :
  prompt E -> 0 <= busy_total E s n <= Z.of_nat n * 55000.
Proof.
  intro HE. unfold busy_total. generalize (ranged s).
  induction n as [|n IH]; intro start; [cbn; lia|].
  cbn [seq map fold_right]. specialize (IH (S start)).
  pose proof (HE start). lia.
Qed.

(** X12.  With rangings that return within 55 ms the sampling phase lasts
    the ten rounds of 500.012 ms plus the time of the ten rangings: between
    5000.12 ms and 5550.12 ms. *)
Theorem active_period_duration (E : env) (fuel : nat) (s : state) :
  prompt E -> (11 <= fuel)%nat ->
  exists c s1,
    sample_phase E fuel s = Some (c, s1) /\
    now_us s1 = now_us s + 10 * 500012 + busy_total E s 10 /\
    5000120 <= now_us s1 - now_us s <= 5550120.
Proof.
  intros HE Hfuel.
  destruct (sample_phase_prompt E fuel s HE Hfuel) as (c & s1 & Hrun & Ht).
  exists c, s1. split; [exact Hrun|].
  destruct (sample_phase_inv E _ _ _ _ Hrun) as (n & Hr & _ & Hn & _).
  assert (n = 10%nat) by lia. subst n.
  unfold sample_phase in Hrun. cbv zeta in Hrun.
  apply sampling_loop_time in Hrun. destruct Hrun as (n & Hr' & Hnow).
  state_simpl. assert (n = 10%nat) by lia. subst n.
  assert (Hsame : busy_total E
            (Serial_print (Text "Starting active sensor sampling cycle...") s)
            10 = busy_total E s 10) by reflexivity.
  rewrite Hsame in Hnow.
  pose proof (busy_total_prompt E s 10 HE) as Hb.
  split; lia.
Qed.

Lemma active_period_duration_witness :
  exists c s1,
    sample_phase env_person 11 (boot false) = Some (c, s1) /\
    now_us s1 = 5029120.
Proof.
  destruct (active_period_duration env_person 11 (boot false))
    as (c & s1 & Hrun & Hnow & _).
  - intro n. cbn. lia.
  - lia.
  - exists c, s1. split; [exact Hrun|]. rewrite Hnow. reflexivity.
Defined.

(** ** The clock *)

(** X13.  The elapsed time the sampling loop computes as
    [millis() - startTime] is the true number of milliseconds between the two
    readings even when the 32-bit counter wrapped around in between, as long
    as less than 2^32 ms have passed; so the loop of line 162 goes on exactly
    while fewer than 5000 true milliseconds have passed. *)
Theorem elapsed_millis_across_wrap (s0 s : state) :
  0 <= now_us s / 1000 - now_us s0 / 1000 < 2 ^ 32 ->
  ulong (millis s - millis s0) = now_us s / 1000 - now_us s0 / 1000 /\
  (forall (E : env) (fuel : nat) (c : counters),
     sampling_loop E (S fuel) (millis s0) c s =
     if now_us s / 1000 - now_us s0 / 1000 <? ACTIVE_PERIOD_MS
     then sampling_loop E fuel (millis s0)
            (tally c (distance_of (pulse (sensor E (ranged s)))))
            (after_sample E s)
     else Some (c, s)).
Proof.
  intro H.
  assert (He : ulong (millis s - millis s0) =
               now_us s / 1000 - now_us s0 / 1000)
    by apply (millis_since (now_us s0) s H).
  split; [exact He|].
  intros E fuel c. rewrite sampling_loop_step, He. reflexivity.
Qed.

Lemma elapsed_millis_across_wrap_witness :
  let s0 := advance 4294967295000 (boot false) in
  let s := advance 3000 s0 in
  millis s0 = 4294967295 /\ millis s = 2 /\ ulong (millis s - millis s0) = 3.
Proof.
  cbv zeta. split; [reflexivity|]. split; [reflexivity|].
  destruct (elapsed_millis_across_wrap
              (advance 4294967295000 (boot false))
              (advance 3000 (advance 4294967295000 (boot false))))
    as [He _].
  - cbn. lia.
  - rewrite He. reflexivity.
Defined.
